(** * Password Strength Analyzer: the local (in-page) analysis

    A shallow embedding of the pure functions of the [Index] page
    component (pages/Index.tsx): feature extraction with regular
    expressions, the rule-based score, the strength bucket, the
    suggestion list and the entropy estimate, together with the small
    part of the component state those functions read and write. *)

From Stdlib Require Import ZArith NArith List String Ascii Bool Lia.
From Stdlib Require Import Reals Lra.
From Stdlib Require Import DecimalString.
Import ListNotations.

Local Open Scope Z_scope.

(** ** JavaScript values used by the page *)

Module JS.

(** A JavaScript string is a sequence of UTF-16 code units. *)
Definition code_unit := N.
Definition js_string := list code_unit.

(** String literals of the source are ASCII. *)
Definition lit (s : string) : js_string :=
  map N_of_ascii (list_ascii_of_string s).

Definition in_range (lo hi u : code_unit) : bool :=
  ((lo <=? u) && (u <=? hi))%N.

(** The four character classes of the regular expressions:
    [[A-Z]], [[a-z]], [\d] (ASCII digits only in JavaScript) and
    [[^A-Za-z0-9]]. *)
Definition is_upper (u : code_unit) : bool := in_range 65%N 90%N u.
Definition is_lower (u : code_unit) : bool := in_range 97%N 122%N u.
Definition is_digit (u : code_unit) : bool := in_range 48%N 57%N u.
Definition is_symbol (u : code_unit) : bool :=
  negb (is_upper u || is_lower u || is_digit u).

(** [/cls/.test(s)] for a one-character class: some code unit matches. *)
Definition test (cls : code_unit -> bool) (s : js_string) : bool :=
  existsb cls s.

(** [String.prototype.toLowerCase].  The needles searched in the lowered
    string are ASCII, so only the places where ASCII letters appear
    matter: [A-Z] map to [a-z]; U+212A KELVIN SIGN lowers to [k] and
    U+0130 to [i] followed by U+0307.  Every other code unit lowers to
    code units outside ASCII or to itself and is kept as it is. *)
Definition lower_unit (u : code_unit) : list code_unit :=
  if is_upper u then [(u + 32)%N]
  else if (u =? 8490)%N then [107%N]
  else if (u =? 304)%N then [105%N; 775%N]
  else [u].

Definition toLowerCase (s : js_string) : js_string := flat_map lower_unit s.

Fixpoint startsWith (s w : js_string) : bool :=
  match w, s with
  | [], _ => true
  | _ :: _, [] => false
  | a :: w', b :: s' => (a =? b)%N && startsWith s' w'
  end.

(** [s.includes(w)]: [w] occurs in [s] at some position. *)
Fixpoint includes (s w : js_string) : bool :=
  startsWith s w ||
  match s with
  | [] => false
  | _ :: s' => includes s' w
  end.

(** [Array.prototype.some] and [Array.prototype.push]. *)
Definition some {A} (l : list A) (f : A -> bool) : bool := existsb f l.
Definition push {A} (l : list A) (x : A) : list A := l ++ [x].

(** A string is truthy when it is not empty. *)
Definition truthy (s : js_string) : bool :=
  match s with [] => false | _ :: _ => true end.

(** *** Numbers of the entropy computation

    The score is an integer and is kept in [Z].  The entropy goes through
    [Math.pow] and [Math.log2] on IEEE doubles; its value is a real
    number, an infinity or NaN.  Rounding to the nearest double is left
    out (a finite result carries the exact real), overflow is not. *)
Inductive number : Type :=
| Finite (x : R)
| PosInfinity
| NegInfinity
| NaN.

(** Integers from this bound on round to [Infinity]: the largest double
    is [2^1024 - 2^971] and the rounding boundary lies half an ulp
    above it. *)
Definition overflow_threshold : Z := 2 ^ 1024 - 2 ^ 970.

(** [Math.pow(b, e)] on non-negative integers. *)
Definition Math_pow (b e : Z) : number :=
  if b ^ e <? overflow_threshold then Finite (IZR (b ^ e)) else PosInfinity.

Definition log2 (x : R) : R := (ln x / ln 2)%R.

Definition Math_log2 (x : number) : number :=
  match x with
  | Finite r =>
      if Rlt_dec 0 r then Finite (log2 r)
      else if Req_EM_T r 0 then NegInfinity
      else NaN
  | PosInfinity => PosInfinity
  | NegInfinity => NaN
  | NaN => NaN
  end.

(** [a <= b] on numbers: false as soon as one side is NaN. *)
Definition number_le (a b : number) : Prop :=
  match a, b with
  | NaN, _ | _, NaN => False
  | NegInfinity, _ => True
  | _, PosInfinity => True
  | Finite x, Finite y => (x <= y)%R
  | _, _ => False
  end.

End JS.

(** ** The [Index] page component *)

Module Index.
Import JS.

Inductive Strength : Type := weak | moderate | strong.

Record Features : Type := mkFeatures {
  length : Z;
  hasUppercase : bool;
  hasLowercase : bool;
  hasDigits : bool;
  hasSymbols : bool;
  hasCommonWords : bool;
  hasKeyboardPatterns : bool
}.

Record PasswordAnalysis : Type := mkAnalysis {
  strength : Strength;
  score : Z;
  entropy : number;
  suggestions : list string;
  features : Features
}.

(** The state hooks of the component. *)
Record State : Type := mkState {
  password : js_string;
  analysis : option PasswordAnalysis;
  isLoading : bool;
  isDarkMode : bool
}.

Definition setAnalysis (a : option PasswordAnalysis) (s : State) : State :=
  mkState (password s) a (isLoading s) (isDarkMode s).

Definition calculateScore (f : Features) : Z :=
  let score := 0 in
  let score := if 8 <=? length f then score + 20 else score in
  let score := if 12 <=? length f then score + 10 else score in
  let score := if hasUppercase f then score + 15 else score in
  let score := if hasLowercase f then score + 15 else score in
  let score := if hasDigits f then score + 15 else score in
  let score := if hasSymbols f then score + 20 else score in
  let score := if negb (hasCommonWords f) then score + 15 else score in
  let score := if negb (hasKeyboardPatterns f) then score + 10 else score in
  Z.min score 100.

(** The score it receives is the integer [calculateScore] returns. *)
Definition getStrengthLevel (score : Z) : Strength :=
  if score <? 40 then weak
  else if score <? 70 then moderate
  else strong.

Definition generateSuggestions (f : Features) : list string :=
  let suggestions := [] in
  let suggestions :=
    if length f <? 8 then push suggestions "Use at least 8 characters"%string
    else suggestions in
  let suggestions :=
    if negb (hasUppercase f) then push suggestions "Add uppercase letters"%string
    else suggestions in
  let suggestions :=
    if negb (hasLowercase f) then push suggestions "Add lowercase letters"%string
    else suggestions in
  let suggestions :=
    if negb (hasDigits f) then push suggestions "Include numbers"%string
    else suggestions in
  let suggestions :=
    if negb (hasSymbols f)
    then push suggestions "Add special characters (!@#$%^&*)"%string
    else suggestions in
  let suggestions :=
    if hasCommonWords f then push suggestions "Avoid common words"%string
    else suggestions in
  let suggestions :=
    if hasKeyboardPatterns f
    then push suggestions "Avoid keyboard patterns (qwerty, 123)"%string
    else suggestions in
  suggestions.

Definition checkCommonWords (password : js_string) : bool :=
  let commonWords :=
    map lit ["password"; "123456"; "qwerty"; "admin"; "login"; "welcome"]%string in
  some commonWords (fun word => includes (toLowerCase password) word).

Definition checkKeyboardPatterns (password : js_string) : bool :=
  let patterns := map lit ["qwerty"; "asdf"; "1234"; "abcd"]%string in
  some patterns (fun pattern => includes (toLowerCase password) pattern).

Definition getCharsetSize (password : js_string) : Z :=
  let size := 0 in
  let size := if test is_lower password then size + 26 else size in
  let size := if test is_upper password then size + 26 else size in
  let size := if test is_digit password then size + 10 else size in
  let size := if test is_symbol password then size + 32 else size in
  size.

Definition calculateEntropy (password : js_string) : number :=
  let charset := getCharsetSize password in
  Math_log2 (Math_pow charset (Z.of_nat (List.length password))).

(** The [features] object built at the head of [analyzePasswordLocally]. *)
Definition extractFeatures (password : js_string) : Features :=
  {| length := Z.of_nat (List.length password);
     hasUppercase := test is_upper password;
     hasLowercase := test is_lower password;
     hasDigits := test is_digit password;
     hasSymbols := test is_symbol password;
     hasCommonWords := checkCommonWords password;
     hasKeyboardPatterns := checkKeyboardPatterns password |}.

(** [analyzePasswordLocally] reads [password] from the component state
    and stores its result with [setAnalysis]. *)
Definition analyzePasswordLocally (s : State) : State :=
  let features := extractFeatures (password s) in
  let score := calculateScore features in
  let strength := getStrengthLevel score in
  let suggestions := generateSuggestions features in
  let entropy := calculateEntropy (password s) in
  setAnalysis
    (Some {| strength := strength;
             score := score;
             entropy := entropy;
             suggestions := suggestions;
             features := features |})
    s.

(** The effect run when [password] changes. *)
Definition useEffect_password (s : State) : State :=
  if truthy (password s) then analyzePasswordLocally s
  else setAnalysis None s.

(** The component right after mounting. *)
Definition initialState : State :=
  {| password := []; analysis := None; isLoading := false; isDarkMode := false |}.

Definition setPassword (p : js_string) (s : State) : State :=
  mkState p (analysis s) (isLoading s) (isDarkMode s).

End Index.

(** ** The [StrengthMeter] component *)

Module StrengthMeter.
Import Index.

(** The "Level" cell: ['1'] for weak, ['2'] for moderate, ['3'] for strong. *)
Definition level (s : Strength) : Z :=
  match s with
  | weak => 1
  | moderate => 2
  | strong => 3
  end.

End StrengthMeter.

(** ** Vocabulary of the properties *)

Module Rules.
Import JS Index.

(** The order of the strength buckets is the order of their levels. *)
Definition strength_le (a b : Strength) : Prop :=
  StrengthMeter.level a <= StrengthMeter.level b.

(** The eight [if] lines of [calculateScore], in program order. *)
Inductive Condition : Type :=
| LengthAtLeast8
| LengthAtLeast12
| Uppercase
| Lowercase
| Digits
| Symbols
| NoCommonWords
| NoKeyboardPatterns.

Definition scoring_order : list Condition :=
  [LengthAtLeast8; LengthAtLeast12; Uppercase; Lowercase; Digits; Symbols;
   NoCommonWords; NoKeyboardPatterns].

Definition holds (f : Features) (c : Condition) : bool :=
  match c with
  | LengthAtLeast8 => 8 <=? length f
  | LengthAtLeast12 => 12 <=? length f
  | Uppercase => hasUppercase f
  | Lowercase => hasLowercase f
  | Digits => hasDigits f
  | Symbols => hasSymbols f
  | NoCommonWords => negb (hasCommonWords f)
  | NoKeyboardPatterns => negb (hasKeyboardPatterns f)
  end.

Definition weight (c : Condition) : Z :=
  match c with
  | LengthAtLeast8 => 20
  | LengthAtLeast12 => 10
  | Uppercase => 15
  | Lowercase => 15
  | Digits => 15
  | Symbols => 20
  | NoCommonWords => 15
  | NoKeyboardPatterns => 10
  end.

(** Sum of the weights of the conditions that hold, before the clamp. *)
Definition earned (f : Features) : Z :=
  fold_left (fun acc c => if holds f c then acc + weight c else acc)
            scoring_order 0.

Definition failed (f : Features) : list Condition :=
  filter (fun c => negb (holds f c)) scoring_order.

(** The text [generateSuggestions] pushes when a condition fails; the
    length-12 line of [calculateScore] has no line there. *)
Definition suggestion (c : Condition) : option string :=
  match c with
  | LengthAtLeast8 => Some "Use at least 8 characters"
  | LengthAtLeast12 => None
  | Uppercase => Some "Add uppercase letters"
  | Lowercase => Some "Add lowercase letters"
  | Digits => Some "Include numbers"
  | Symbols => Some "Add special characters (!@#$%^&*)"
  | NoCommonWords => Some "Avoid common words"
  | NoKeyboardPatterns => Some "Avoid keyboard patterns (qwerty, 123)"
  end%string.

Definition texts (cs : list Condition) : list string :=
  flat_map (fun c => match suggestion c with Some s => [s] | None => [] end) cs.

(** Character classes, with the size each adds in [getCharsetSize]. *)
Inductive CharClass : Type := Lower | Upper | Digit | Symbol.

Definition classes : list CharClass := [Lower; Upper; Digit; Symbol].

Definition member (c : CharClass) : code_unit -> bool :=
  match c with
  | Lower => is_lower
  | Upper => is_upper
  | Digit => is_digit
  | Symbol => is_symbol
  end.

Definition class_size (c : CharClass) : Z :=
  match c with
  | Lower => 26
  | Upper => 26
  | Digit => 10
  | Symbol => 32
  end.

Definition present (c : CharClass) (p : js_string) : bool := test (member c) p.

Definition class_eqb (a b : CharClass) : bool :=
  match a, b with
  | Lower, Lower | Upper, Upper | Digit, Digit | Symbol, Symbol => true
  | _, _ => false
  end.

(** The entropy as the specification words it: the sizes of the classes
    present are added up, the sum is floored at 1, and the entropy is
    length × log2 of it. *)
Definition charset_spec (p : js_string) : Z :=
  Z.max 1 (fold_right (fun c acc => if present c p then class_size c + acc else acc)
                      0 classes).

Definition entropy_spec (p : js_string) : number :=
  Finite (INR (List.length p) * log2 (IZR (charset_spec p))).

(** [s.repeat(n)], used to write long inputs. *)
Definition repeat_string (s : js_string) (n : nat) : js_string :=
  List.concat (List.repeat s n).

Definition state_of (p : string) : State :=
  setPassword (lit p) initialState.

(** [A-Z] folded onto [a-z]; two passwords are the same up to the case
    of their ASCII letters when they agree after folding. *)
Definition ascii_lower (u : code_unit) : code_unit :=
  if is_upper u then (u + 32)%N else u.

Definition same_up_to_ascii_case (p q : js_string) : Prop :=
  map ascii_lower p = map ascii_lower q.

End Rules.

(** ** The [FeatureBreakdown] component *)

Module FeatureBreakdown.
Import JS Index.

Record FeatureItem : Type := mkItem {
  label : string;
  value : string;
  status : bool;
  description : string
}.

(** An integer inside a template literal: its decimal digits. *)
Definition number_to_string (z : Z) : string :=
  NilZero.string_of_int (Z.to_int z).

Definition featureItems (features : Features) : list FeatureItem :=
  [ {| label := "Length";
       value := number_to_string (length features) ++ " characters";
       status := (8 <=? length features)%Z;
       description := "Minimum 8 characters recommended" |};
    {| label := "Uppercase Letters";
       value := if hasUppercase features then "Present" else "Missing";
       status := hasUppercase features;
       description := "A-Z characters" |};
    {| label := "Lowercase Letters";
       value := if hasLowercase features then "Present" else "Missing";
       status := hasLowercase features;
       description := "a-z characters" |};
    {| label := "Numbers";
       value := if hasDigits features then "Present" else "Missing";
       status := hasDigits features;
       description := "0-9 digits" |};
    {| label := "Special Characters";
       value := if hasSymbols features then "Present" else "Missing";
       status := hasSymbols features;
       description := "!@#$%^&* symbols" |};
    {| label := "Common Words";
       value := if hasCommonWords features then "Found" else "None";
       status := negb (hasCommonWords features);
       description := "Avoid dictionary words" |};
    {| label := "Keyboard Patterns";
       value := if hasKeyboardPatterns features then "Found" else "None";
       status := negb (hasKeyboardPatterns features);
       description := "Avoid sequences like qwerty" |} ]%string.

(** The rows drawn with the warning triangle instead of the check mark. *)
Definition warnings (features : Features) : list FeatureItem :=
  filter (fun item => negb (status item)) (featureItems features).

End FeatureBreakdown.

(** ** The [Suggestions] component *)

Module Suggestions.

(** [suggestions.length === 0] selects the "Excellent!" panel over the
    list of suggestions. *)
Definition showsExcellent (suggestions : list string) : bool :=
  Nat.eqb (List.length suggestions) 0.

End Suggestions.

(** ** The page as a state machine

    The handlers of [Index], with the events a user and the backend can
    raise.  [submitToBackend] is asynchronous:
    it is cut at its [await] into the part run by the click and the
    part run when the request settles. *)

Module Page.
Import JS Index.

Record Toast : Type := mkToast {
  title : string;
  toast_description : string;
  variant : option string
}.

Definition errorToast : Toast :=
  mkToast "Error" "Please enter a password to analyze" (Some "destructive"%string).
Definition completeToast : Toast :=
  mkToast "Analysis Complete" "Password analyzed successfully" None.
Definition failedToast : Toast :=
  mkToast "Analysis Failed" "Using local analysis instead" (Some "destructive"%string).

(** How the request settles: [response.ok] with a body, stored as it
    is; or the [catch] block, reached when [fetch] rejects or the
    response is not ok.  The body ranges over what the state hook is
    declared to hold, a [PasswordAnalysis] or [null]; bodies of another
    shape are outside this model. *)
Inductive Reply : Type :=
| ReplyOk (backendAnalysis : option PasswordAnalysis)
| ReplyFailed.

(** The component state, the requests awaiting their reply and the
    toasts raised so far. *)
Record Page : Type := mkPage {
  st : State;
  inFlight : nat;
  toasts : list Toast
}.

Definition setIsLoading (b : bool) (s : State) : State :=
  mkState (password s) (analysis s) b (isDarkMode s).

Definition setIsDarkMode (b : bool) (s : State) : State :=
  mkState (password s) (analysis s) (isLoading s) b.

Fixpoint string_eqb (a b : js_string) : bool :=
  match a, b with
  | [], [] => true
  | x :: a', y :: b' => (x =? y)%N && string_eqb a' b'
  | _, _ => false
  end.

(** [onChange] of the input calls [setPassword]; a value equal to the
    current one changes nothing, any other value triggers the effect on
    [password] after the render. *)
Definition onChange (value : js_string) (pg : Page) : Page :=
  if string_eqb value (password (st pg)) then pg
  else mkPage (useEffect_password (setPassword value (st pg)))
              (inFlight pg) (toasts pg).

(** [onClick] of the [DarkModeToggle]. *)
Definition toggleDarkMode (pg : Page) : Page :=
  mkPage (setIsDarkMode (negb (isDarkMode (st pg))) (st pg))
         (inFlight pg) (toasts pg).

(** [disabled] of the submit button. *)
Definition submitDisabled (s : State) : bool :=
  negb (truthy (password s)) || isLoading s.

(** [submitToBackend] up to the [await fetch]. *)
Definition submitToBackend_begin (pg : Page) : Page :=
  if negb (truthy (password (st pg)))
  then mkPage (st pg) (inFlight pg) (push (toasts pg) errorToast)
  else mkPage (setIsLoading true (st pg)) (S (inFlight pg)) (toasts pg).

(** [submitToBackend] from the reply on: [try], [catch] and [finally]. *)
Definition submitToBackend_settle (r : Reply) (pg : Page) : Page :=
  match r with
  | ReplyOk backendAnalysis =>
      mkPage (setIsLoading false (setAnalysis backendAnalysis (st pg)))
             (pred (inFlight pg)) (push (toasts pg) completeToast)
  | ReplyFailed =>
      mkPage (setIsLoading false (st pg))
             (pred (inFlight pg)) (push (toasts pg) failedToast)
  end.

Inductive Event : Type :=
| Change (value : js_string)
| ToggleDark
| Click
| Settle (r : Reply).

(** A disabled button raises no click; a reply needs a request. *)
Definition handle (e : Event) (pg : Page) : Page :=
  match e with
  | Change value => onChange value pg
  | ToggleDark => toggleDarkMode pg
  | Click => if submitDisabled (st pg) then pg else submitToBackend_begin pg
  | Settle r =>
      match inFlight pg with
      | O => pg
      | S _ => submitToBackend_settle r pg
      end
  end.

Definition run (events : list Event) (pg : Page) : Page :=
  fold_left (fun pg e => handle e pg) events pg.

(** The page after mounting: the effect has run once. *)
Definition mount : Page := mkPage (useEffect_password initialState) 0 [].

(** What typing [p] leaves in [analysis]. *)
Definition localAnalysis (p : js_string) : option PasswordAnalysis :=
  analysis (useEffect_password (setPassword p initialState)).

Definition is_successful_reply (e : Event) : bool :=
  match e with
  | Settle (ReplyOk _) => true
  | _ => false
  end.

End Page.

(** ** Properties of the rule-based score *)

Import JS Index Rules.

Section Score.

Variable f : Features.

Lemma weight_nonneg (c : Condition) : 0 <= weight c.
Proof. destruct c; simpl; lia. Qed.

(** [calculateScore] is the clamped sum of the weights earned. *)
Lemma calculateScore_earned : calculateScore f = Z.min (earned f) 100.
Proof.
  unfold calculateScore, earned, scoring_order, holds, weight; simpl.
  reflexivity.
Qed.

Lemma earned_bounds : 0 <= earned f <= 120.
Proof.
  unfold earned, scoring_order, holds, weight; simpl.
  destruct (8 <=? length f), (12 <=? length f), (hasUppercase f),
    (hasLowercase f), (hasDigits f), (hasSymbols f), (hasCommonWords f),
    (hasKeyboardPatterns f); simpl; lia.
Qed.

End Score.

(** C1.  Whatever the features, every scoring weight is non-negative,
    [calculateScore] is the sum of the weights of the satisfied
    conditions clamped from above at 100, and so lies in [0,100]. *)
Theorem calculateScore_range (f : Features) :
  (forall c, 0 <= weight c) /\
  calculateScore f = Z.min (earned f) 100 /\
  0 <= calculateScore f <= 100.
Proof.
  split; [exact weight_nonneg|].
  split; [apply calculateScore_earned|].
  rewrite calculateScore_earned.
  pose proof (earned_bounds f). lia.
Qed.

(** ** Properties of the strength bucket *)

Lemma getStrengthLevel_cases (s : Z) :
  (s < 40 /\ getStrengthLevel s = weak) \/
  (40 <= s < 70 /\ getStrengthLevel s = moderate) \/
  (70 <= s /\ getStrengthLevel s = strong).
Proof.
  unfold getStrengthLevel.
  destruct (Z.ltb_spec s 40); [left; auto|].
  destruct (Z.ltb_spec s 70); [right; left; auto|].
  right; right; auto.
Qed.

(** C2.  [getStrengthLevel] returns [weak] exactly below 40, [moderate]
    exactly from 40 up to but not including 70, and [strong] exactly
    from 70 on. *)
Theorem getStrengthLevel_partition (s : Z) :
  (getStrengthLevel s = weak <-> s < 40) /\
  (getStrengthLevel s = moderate <-> 40 <= s < 70) /\
  (getStrengthLevel s = strong <-> 70 <= s).
Proof.
  destruct (getStrengthLevel_cases s) as [[H E]|[[H E]|[H E]]];
    rewrite E; repeat split; intros; try discriminate; try lia.
Qed.

Lemma getStrengthLevel_partition_witness :
  getStrengthLevel 39 = weak /\ getStrengthLevel 40 = moderate /\
  getStrengthLevel 69 = moderate /\ getStrengthLevel 70 = strong.
Proof.
  split; [|split; [|split]].
  - apply (proj2 (proj1 (getStrengthLevel_partition 39))); lia.
  - apply (proj2 (proj1 (proj2 (getStrengthLevel_partition 40)))); lia.
  - apply (proj2 (proj1 (proj2 (getStrengthLevel_partition 69)))); lia.
  - apply (proj2 (proj2 (proj2 (getStrengthLevel_partition 70)))); lia.
Defined.

(** C8.  The strength bucket never goes down when the score goes up,
    for the order weak < moderate < strong. *)
Theorem getStrengthLevel_monotone (s1 s2 : Z) :
  s1 <= s2 -> strength_le (getStrengthLevel s1) (getStrengthLevel s2).
Proof.
  intros Hle. unfold strength_le.
  destruct (getStrengthLevel_cases s1) as [[H1 E1]|[[H1 E1]|[H1 E1]]];
    destruct (getStrengthLevel_cases s2) as [[H2 E2]|[[H2 E2]|[H2 E2]]];
    rewrite E1, E2; simpl; lia.
Qed.

Lemma getStrengthLevel_monotone_witness :
  39 <= 70 /\ strength_le (getStrengthLevel 39) (getStrengthLevel 70).
Proof.
  split; [lia | apply (getStrengthLevel_monotone 39 70); lia].
Defined.

(** ** Properties of the suggestion list *)

Ltac split_features f :=
  destruct (Z.leb_spec 8 (length f)), (Z.ltb_spec (length f) 8),
    (Z.leb_spec 12 (length f)); try lia;
  destruct (hasUppercase f), (hasLowercase f), (hasDigits f), (hasSymbols f),
    (hasCommonWords f), (hasKeyboardPatterns f).

Lemma every_condition_scored (c : Condition) : In c scoring_order.
Proof. destruct c; simpl; tauto. Qed.

(** The suggestions are the texts of the failed conditions, read off in
    scoring order. *)
Lemma generateSuggestions_texts (f : Features) :
  generateSuggestions f = texts (failed f).
Proof.
  unfold generateSuggestions, texts, failed, scoring_order, holds, push.
  split_features f; reflexivity.
Qed.

Lemma failed_condition_listed (f : Features) (c : Condition) (s : string) :
  holds f c = false -> suggestion c = Some s -> In s (texts (failed f)).
Proof.
  intros Hc Hs. unfold texts. apply in_flat_map. exists c. split.
  - unfold failed. apply filter_In. split; [apply every_condition_scored|].
    rewrite Hc. reflexivity.
  - rewrite Hs. left. reflexivity.
Qed.

(** C4, as the code has it.  The suggestions are exactly the corrective
    texts of the failed conditions in the order in which the score
    evaluates them, and every failed condition other than the length-12
    bonus has its text in the list. *)
Theorem generateSuggestions_failed_in_order (f : Features) :
  generateSuggestions f = texts (failed f) /\
  (forall c, c <> LengthAtLeast12 -> holds f c = false ->
     exists s, suggestion c = Some s /\ In s (generateSuggestions f)).
Proof.
  split; [apply generateSuggestions_texts|].
  intros c Hc Hf.
  destruct (suggestion c) as [s|] eqn:Hs.
  - exists s. split; [reflexivity|].
    rewrite generateSuggestions_texts.
    apply (failed_condition_listed f c s Hf Hs).
  - destruct c; simpl in Hs; try discriminate. contradiction.
Qed.

Lemma generateSuggestions_failed_in_order_witness :
  exists s, suggestion Uppercase = Some s /\
            In s (generateSuggestions (extractFeatures (lit "password123"))).
Proof.
  apply (proj2 (generateSuggestions_failed_in_order
                  (extractFeatures (lit "password123"))) Uppercase).
  - discriminate.
  - reflexivity.
Defined.

(** C4, as stated, fails: a ten-character password with all four classes
    and no listed word misses the length-12 weight, and its suggestion
    list is empty. *)
Lemma length12_has_no_suggestion :
  ~ (forall c, holds (extractFeatures (lit "Tr0ub4dor&")) c = false ->
       exists s, In s (generateSuggestions (extractFeatures (lit "Tr0ub4dor&")))).
Proof.
  intros H. destruct (H LengthAtLeast12) as [s Hs]; [reflexivity|].
  vm_compute in Hs. exact Hs.
Qed.

(** C10.  An empty suggestion list forces score 100 and bucket strong. *)
Theorem no_suggestions_full_score (f : Features) :
  generateSuggestions f = [] ->
  calculateScore f = 100 /\ getStrengthLevel (calculateScore f) = strong.
Proof.
  unfold generateSuggestions, calculateScore, push.
  split_features f; simpl; intros Hnil; try discriminate Hnil; split; reflexivity.
Qed.

Lemma no_suggestions_full_score_witness :
  generateSuggestions (extractFeatures (lit "Tr0ub4dor&3xyz!")) = [] /\
  calculateScore (extractFeatures (lit "Tr0ub4dor&3xyz!")) = 100 /\
  getStrengthLevel (calculateScore (extractFeatures (lit "Tr0ub4dor&3xyz!"))) = strong.
Proof.
  split; [reflexivity|].
  apply (no_suggestions_full_score (extractFeatures (lit "Tr0ub4dor&3xyz!"))).
  reflexivity.
Defined.

(** ** The two scenarios *)

(** C5, as the code has it.  For "password123" the suggestions include
    'Avoid common words'; the score is 60 and the bucket is moderate. *)
Theorem password123_moderate :
  In "Avoid common words"%string
     (generateSuggestions (extractFeatures (lit "password123"))) /\
  calculateScore (extractFeatures (lit "password123")) = 60 /\
  getStrengthLevel (calculateScore (extractFeatures (lit "password123"))) = moderate.
Proof.
  split; [|split; reflexivity].
  vm_compute. tauto.
Qed.

(** C5, as stated, fails: the bucket of "password123" is not weak. *)
Lemma password123_not_weak :
  getStrengthLevel (calculateScore (extractFeatures (lit "password123"))) <> weak.
Proof. vm_compute. discriminate. Qed.

(** The effect clears the analysis when the password is empty. *)
Lemma useEffect_empty_password (s : State) :
  password s = [] -> analysis (useEffect_password s) = None.
Proof. intros H. unfold useEffect_password. rewrite H. reflexivity. Qed.

(** C6, as the code has it.  For the empty password the page does not
    crash and evaluates nothing: whatever the state held before, the
    effect on the password stores [null], so there is no score, no
    strength and no feedback list, and the rest of the state is kept. *)
Theorem empty_password_no_analysis (s : State) :
  password s = [] ->
  analysis (useEffect_password s) = None /\
  password (useEffect_password s) = [] /\
  isLoading (useEffect_password s) = isLoading s /\
  isDarkMode (useEffect_password s) = isDarkMode s.
Proof.
  intros H. split; [apply useEffect_empty_password; exact H|].
  unfold useEffect_password. rewrite H. simpl. rewrite H.
  repeat split.
Qed.

Lemma empty_password_no_analysis_witness :
  analysis (useEffect_password
              (setPassword (lit "")
                 (analyzePasswordLocally (state_of "password123")))) = None.
Proof.
  apply (empty_password_no_analysis
           (setPassword (lit "")
              (analyzePasswordLocally (state_of "password123")))).
  reflexivity.
Defined.

(** C6, as stated, fails: for the empty password the page holds no
    analysis, hence none with score 0, strength weak and a
    minimum-length suggestion. *)
Lemma empty_password_has_no_score :
  ~ exists a, analysis (useEffect_password (state_of "")) = Some a /\
              score a = 0 /\
              strength a = weak /\
              In "Use at least 8 characters"%string (suggestions a).
Proof.
  intros [a [Ha _]].
  rewrite (useEffect_empty_password (state_of "") eq_refl) in Ha.
  discriminate Ha.
Qed.

(** ** Determinism *)

(** C9.  Two runs of [analyzePasswordLocally] from states that hold the
    same password store the same analysis, whatever else the states
    hold; a second run changes nothing; and every field of the analysis
    is a function of the password. *)
Theorem analyzePasswordLocally_deterministic (s1 s2 : State) :
  password s1 = password s2 ->
  analysis (analyzePasswordLocally s1) = analysis (analyzePasswordLocally s2) /\
  analyzePasswordLocally (analyzePasswordLocally s1) = analyzePasswordLocally s1 /\
  exists a, analysis (analyzePasswordLocally s2) = Some a /\
            features a = extractFeatures (password s1) /\
            score a = calculateScore (extractFeatures (password s1)) /\
            strength a =
              getStrengthLevel (calculateScore (extractFeatures (password s1))) /\
            suggestions a = generateSuggestions (extractFeatures (password s1)) /\
            entropy a = calculateEntropy (password s1).
Proof.
  intros Hp. unfold analyzePasswordLocally, setAnalysis; simpl.
  rewrite Hp. split; [reflexivity|]. split; [reflexivity|].
  eexists. split; [reflexivity|]. simpl. repeat split.
Qed.

Lemma analyzePasswordLocally_deterministic_witness :
  analysis (analyzePasswordLocally (state_of "password123")) =
  analysis (analyzePasswordLocally
              (mkState (lit "password123") None true true)).
Proof.
  apply (analyzePasswordLocally_deterministic
           (state_of "password123")
           (mkState (lit "password123") None true true)).
  reflexivity.
Defined.

(** ** Properties of the character-set size *)

Section Charset.

Variable p : js_string.

(** [getCharsetSize] adds up the sizes of the classes present. *)
Lemma getCharsetSize_classes :
  getCharsetSize p =
  fold_right (fun c acc => if present c p then class_size c + acc else acc)
             0 classes.
Proof.
  unfold getCharsetSize, classes, present, member, class_size; simpl.
  destruct (test is_lower p), (test is_upper p), (test is_digit p),
    (test is_symbol p); reflexivity.
Qed.

Lemma getCharsetSize_bounds : 0 <= getCharsetSize p <= 94.
Proof.
  unfold getCharsetSize.
  destruct (test is_lower p), (test is_upper p), (test is_digit p),
    (test is_symbol p); lia.
Qed.

(** Every code unit belongs to one of the four classes, so a password
    that is not empty has a class present. *)
Lemma getCharsetSize_nonempty : p <> [] -> 10 <= getCharsetSize p.
Proof.
  intros Hne. unfold getCharsetSize.
  destruct (test is_lower p) eqn:El, (test is_upper p) eqn:Eu,
    (test is_digit p) eqn:Ed, (test is_symbol p) eqn:Es; try lia.
  exfalso. destruct p as [|u p']; [congruence|].
  unfold test in *; simpl in *.
  apply orb_false_elim in El, Eu, Ed, Es.
  destruct El as [El _], Eu as [Eu _], Ed as [Ed _], Es as [Es _].
  unfold is_symbol in Es. rewrite El, Eu, Ed in Es. discriminate Es.
Qed.

Lemma charset_spec_floor : charset_spec p = Z.max 1 (getCharsetSize p).
Proof. unfold charset_spec. rewrite getCharsetSize_classes. reflexivity. Qed.

(** The argument of [Math.pow] is the same with and without the floor:
    the size is 0 only for the empty password, where the exponent is 0. *)
Lemma pow_floor_irrelevant :
  getCharsetSize p ^ Z.of_nat (List.length p) =
  charset_spec p ^ Z.of_nat (List.length p).
Proof.
  rewrite charset_spec_floor.
  destruct p as [|u p'] eqn:E.
  - reflexivity.
  - rewrite <- E. assert (10 <= getCharsetSize p).
    { apply getCharsetSize_nonempty. rewrite E. discriminate. }
    rewrite Z.max_r by lia. reflexivity.
Qed.

Lemma pow_argument_positive :
  1 <= getCharsetSize p ^ Z.of_nat (List.length p).
Proof.
  rewrite pow_floor_irrelevant, charset_spec_floor.
  assert (0 < Z.max 1 (getCharsetSize p) ^ Z.of_nat (List.length p)).
  { apply Z.pow_pos_nonneg; lia. }
  lia.
Qed.

End Charset.

Lemma getCharsetSize_monotone (p q : js_string) :
  (forall c, present c p = true -> present c q = true) ->
  getCharsetSize p <= getCharsetSize q.
Proof.
  intros H.
  pose proof (H Lower) as Hl. pose proof (H Upper) as Hu.
  pose proof (H Digit) as Hd. pose proof (H Symbol) as Hs.
  unfold present, member in *. unfold getCharsetSize.
  destruct (test is_lower p), (test is_upper p), (test is_digit p),
    (test is_symbol p);
    repeat match goal with
           | H : true = true -> _ |- _ => rewrite (H eq_refl); clear H
           | H : false = true -> _ |- _ => clear H
           end;
    destruct (test is_lower q), (test is_upper q), (test is_digit q),
      (test is_symbol q); lia.
Qed.

(** ** Properties of the entropy *)

Local Open Scope R_scope.

Lemma ln2_positive : 0 < ln 2.
Proof. pose proof ln_lt_2. lra. Qed.

Lemma log2_1 : log2 1 = 0.
Proof. unfold log2. rewrite ln_1. field. pose proof ln2_positive. lra. Qed.

Lemma log2_monotone (x y : R) : 0 < x -> x <= y -> log2 x <= log2 y.
Proof.
  intros Hx [Hlt|Heq].
  - unfold log2. apply Rmult_le_compat_r.
    + left. apply Rinv_0_lt_compat, ln2_positive.
    + left. apply ln_increasing; assumption.
  - subst. apply Rle_refl.
Qed.

Lemma log2_pow (c : Z) (n : nat) :
  (0 < c)%Z -> log2 (IZR (c ^ Z.of_nat n)) = INR n * log2 (IZR c).
Proof.
  intros Hc. rewrite <- pow_IZR. unfold log2.
  rewrite ln_pow by (apply IZR_lt; assumption).
  field. pose proof ln2_positive. lra.
Qed.

Lemma Math_log2_positive_integer (z : Z) :
  (1 <= z)%Z -> Math_log2 (Finite (IZR z)) = Finite (log2 (IZR z)).
Proof.
  intros Hz. simpl.
  destruct (Rlt_dec 0 (IZR z)) as [_|Hn]; [reflexivity|].
  exfalso. apply Hn. apply IZR_lt. lia.
Qed.

(** The two outcomes of [calculateEntropy]: the logarithm of the exact
    power, or [Infinity] once the power overflows. *)
Lemma calculateEntropy_cases (p : js_string) :
  ((getCharsetSize p ^ Z.of_nat (List.length p) < overflow_threshold)%Z /\
   calculateEntropy p =
   Finite (log2 (IZR (getCharsetSize p ^ Z.of_nat (List.length p))))) \/
  ((overflow_threshold <= getCharsetSize p ^ Z.of_nat (List.length p))%Z /\
   calculateEntropy p = PosInfinity).
Proof.
  unfold calculateEntropy, Math_pow.
  destruct (Z.ltb_spec (getCharsetSize p ^ Z.of_nat (List.length p))
                       overflow_threshold) as [Hlt|Hge].
  - left. split; [assumption|].
    apply Math_log2_positive_integer, pow_argument_positive.
  - right. split; [assumption | reflexivity].
Qed.

(** Below the overflow the code computes what the specification words. *)
Lemma calculateEntropy_below_overflow (p : js_string) :
  (getCharsetSize p ^ Z.of_nat (List.length p) < overflow_threshold)%Z ->
  calculateEntropy p = entropy_spec p.
Proof.
  intros Hlt.
  destruct (calculateEntropy_cases p) as [[_ E]|[Hge _]]; [|lia].
  rewrite E. unfold entropy_spec. f_equal.
  rewrite pow_floor_irrelevant. apply log2_pow.
  rewrite charset_spec_floor. lia.
Qed.

(** Passwords of at most 156 code units never overflow. *)
Lemma short_password_no_overflow (p : js_string) :
  (List.length p <= 156)%nat ->
  (getCharsetSize p ^ Z.of_nat (List.length p) < overflow_threshold)%Z.
Proof.
  intros Hlen. pose proof (getCharsetSize_bounds p) as Hc.
  apply Z.le_lt_trans with (94 ^ 156)%Z; [|vm_compute; reflexivity].
  apply Z.le_trans with (94 ^ Z.of_nat (List.length p))%Z.
  - apply Z.pow_le_mono_l. lia.
  - apply Z.pow_le_mono_r; lia.
Qed.

Lemma calculateEntropy_empty : calculateEntropy [] = Finite 0.
Proof.
  rewrite calculateEntropy_below_overflow by (vm_compute; reflexivity).
  unfold entropy_spec. simpl. f_equal. lra.
Qed.

Lemma calculateEntropy_not_nan (p : js_string) :
  calculateEntropy p <> NaN /\ calculateEntropy p <> NegInfinity.
Proof.
  destruct (calculateEntropy_cases p) as [[_ E]|[_ E]]; rewrite E;
    split; discriminate.
Qed.

Local Close Scope R_scope.

(** C3.  On a password of 160 code units drawn from all four classes the
    power [94^160] overflows the doubles: the code returns [Infinity],
    where the specification's formula gives 160 × log2 94.  (Below the
    overflow the two agree, see [calculateEntropy_below_overflow]; the
    empty password gives 0, see [calculateEntropy_empty].) *)
Theorem calculateEntropy_overflows_on_long_password :
  calculateEntropy (repeat_string (lit "aA1!") 40) = PosInfinity /\
  entropy_spec (repeat_string (lit "aA1!") 40) = Finite (160 * log2 94) /\
  calculateEntropy (repeat_string (lit "aA1!") 40) <>
  entropy_spec (repeat_string (lit "aA1!") 40).
Proof.
  assert (E : calculateEntropy (repeat_string (lit "aA1!") 40) = PosInfinity).
  { destruct (calculateEntropy_cases (repeat_string (lit "aA1!") 40))
      as [[Hlt _]|[_ E]]; [|exact E].
    vm_compute in Hlt. discriminate Hlt. }
  split; [exact E|]. split.
  - unfold entropy_spec.
    replace (charset_spec (repeat_string (lit "aA1!") 40)) with 94
      by (vm_compute; reflexivity).
    replace (List.length (repeat_string (lit "aA1!") 40)) with 160%nat
      by (vm_compute; reflexivity).
    f_equal. f_equal. rewrite INR_IZR_INZ. f_equal.
  - rewrite E. unfold entropy_spec. discriminate.
Qed.

(** C7.  At equal length, a password that has one more character class
    than another has at least its entropy. *)
Theorem calculateEntropy_monotone_in_classes (p q : js_string) (c : CharClass) :
  List.length q = List.length p ->
  present c p = false ->
  (forall c', present c' q = present c' p || class_eqb c' c) ->
  number_le (calculateEntropy p) (calculateEntropy q).
Proof.
  intros Hlen _ Hq.
  assert (Hc : getCharsetSize p <= getCharsetSize q).
  { apply getCharsetSize_monotone. intros c' Hp. rewrite Hq, Hp. reflexivity. }
  assert (Hpow : getCharsetSize p ^ Z.of_nat (List.length p) <=
                 getCharsetSize q ^ Z.of_nat (List.length q)).
  { rewrite Hlen. apply Z.pow_le_mono_l.
    pose proof (getCharsetSize_bounds p). lia. }
  pose proof (pow_argument_positive p) as Hpos.
  destruct (calculateEntropy_cases q) as [[Hq_lt Eq]|[_ Eq]]; rewrite Eq.
  - destruct (calculateEntropy_cases p) as [[_ Ep]|[Hp_ge _]]; [|lia].
    rewrite Ep. simpl. apply log2_monotone.
    + apply IZR_lt. lia.
    + apply IZR_le. exact Hpow.
  - destruct (calculateEntropy_cases p) as [[_ Ep]|[_ Ep]]; rewrite Ep;
      exact I.
Qed.

Lemma calculateEntropy_monotone_in_classes_witness :
  number_le (calculateEntropy (lit "password")) (calculateEntropy (lit "Password")).
Proof.
  apply (calculateEntropy_monotone_in_classes
           (lit "password") (lit "Password") Upper).
  - reflexivity.
  - reflexivity.
  - intros c'. destruct c'; reflexivity.
Defined.

(** ** Further properties of the score and the suggestions *)

Ltac split_flags f :=
  destruct (hasUppercase f), (hasLowercase f), (hasDigits f), (hasSymbols f),
    (hasCommonWords f), (hasKeyboardPatterns f).

Ltac split_lengths f :=
  destruct (Z.leb_spec 8 (length f)), (Z.ltb_spec (length f) 8),
    (Z.leb_spec 12 (length f)); try lia.

Definition contribution (f : Features) (c : Condition) : Z :=
  if holds f c then weight c else 0.

Lemma calculateScore_contributions (f : Features) :
  calculateScore f =
  Z.min (contribution f LengthAtLeast8 + contribution f LengthAtLeast12 +
         contribution f Uppercase + contribution f Lowercase +
         contribution f Digits + contribution f Symbols +
         contribution f NoCommonWords + contribution f NoKeyboardPatterns) 100.
Proof.
  unfold calculateScore, contribution, holds, weight.
  destruct (8 <=? length f), (12 <=? length f); split_flags f; reflexivity.
Qed.

Lemma contribution_monotone (f g : Features) (c : Condition) :
  (holds f c = true -> holds g c = true) ->
  contribution f c <= contribution g c.
Proof.
  unfold contribution. intros H. pose proof (weight_nonneg c).
  destruct (holds f c); [rewrite (H eq_refl)|destruct (holds g c)]; lia.
Qed.

(** X1.  Satisfying more of the scoring conditions never lowers the
    score: if every condition that holds of [f] holds of [g], the score
    of [f] is at most the score of [g]. *)
Theorem calculateScore_monotone (f g : Features) :
  (forall c, holds f c = true -> holds g c = true) ->
  calculateScore f <= calculateScore g.
Proof.
  intros H. rewrite !calculateScore_contributions.
  pose proof (contribution_monotone f g LengthAtLeast8 (H _)).
  pose proof (contribution_monotone f g LengthAtLeast12 (H _)).
  pose proof (contribution_monotone f g Uppercase (H _)).
  pose proof (contribution_monotone f g Lowercase (H _)).
  pose proof (contribution_monotone f g Digits (H _)).
  pose proof (contribution_monotone f g Symbols (H _)).
  pose proof (contribution_monotone f g NoCommonWords (H _)).
  pose proof (contribution_monotone f g NoKeyboardPatterns (H _)).
  lia.
Qed.

Lemma calculateScore_monotone_witness :
  calculateScore (extractFeatures (lit "password")) <=
  calculateScore (extractFeatures (lit "Tr0ub4dor&3xyz!")).
Proof.
  apply (calculateScore_monotone (extractFeatures (lit "password"))
                                 (extractFeatures (lit "Tr0ub4dor&3xyz!"))).
  intros c. destruct c; vm_compute; intros E; try reflexivity; discriminate E.
Defined.

(** X2.  With all four character classes and neither a common word nor
    a keyboard pattern the score is at least 90 and the bucket is
    strong, whatever the length. *)
Theorem all_classes_clean_is_strong (f : Features) :
  hasUppercase f = true -> hasLowercase f = true ->
  hasDigits f = true -> hasSymbols f = true ->
  hasCommonWords f = false -> hasKeyboardPatterns f = false ->
  90 <= calculateScore f /\ getStrengthLevel (calculateScore f) = strong.
Proof.
  intros Hu Hl Hd Hs Hw Hk. unfold calculateScore.
  rewrite Hu, Hl, Hd, Hs, Hw, Hk.
  destruct (8 <=? length f), (12 <=? length f); simpl; split;
    first [reflexivity | lia].
Qed.

Lemma all_classes_clean_is_strong_witness :
  90 <= calculateScore (extractFeatures (lit "aB3!")) /\
  getStrengthLevel (calculateScore (extractFeatures (lit "aB3!"))) = strong.
Proof.
  apply (all_classes_clean_is_strong (extractFeatures (lit "aB3!")));
    reflexivity.
Defined.

(** X3.  Score 100 is out of reach below 8 characters: there the score
    is at most 90. *)
Theorem short_password_below_full_score (f : Features) :
  length f < 8 -> calculateScore f <= 90.
Proof.
  intros Hlen. unfold calculateScore.
  split_lengths f. split_flags f; simpl; lia.
Qed.

Lemma short_password_below_full_score_witness :
  calculateScore (extractFeatures (lit "aB3!")) <= 90.
Proof.
  apply (short_password_below_full_score (extractFeatures (lit "aB3!"))).
  vm_compute. reflexivity.
Defined.

Definition count (b : bool) : nat := if b then 1%nat else 0%nat.

Lemma texts_failed_step (g : Condition -> bool) (c : Condition)
      (l : list Condition) :
  List.length (texts (filter g (c :: l))) =
  ((if g c then match suggestion c with Some _ => 1 | None => 0 end else 0)
   + List.length (texts (filter g l)))%nat.
Proof.
  unfold texts. simpl. destruct (g c); [|reflexivity].
  simpl. rewrite length_app. destruct (suggestion c); reflexivity.
Qed.

(** One suggestion for each of the seven lines whose test fires. *)
Lemma suggestions_count (f : Features) :
  List.length (generateSuggestions f) =
  (count (negb (8 <=? length f)%Z) + count (negb (hasUppercase f)) +
   count (negb (hasLowercase f)) + count (negb (hasDigits f)) +
   count (negb (hasSymbols f)) + count (hasCommonWords f) +
   count (hasKeyboardPatterns f))%nat.
Proof.
  rewrite generateSuggestions_texts. unfold failed, scoring_order.
  rewrite !texts_failed_step. unfold holds, suggestion, count. simpl.
  rewrite !negb_involutive.
  destruct (8 <=? length f), (12 <=? length f); split_flags f; reflexivity.
Qed.

Lemma filter_count {A} (g : A -> bool) (x : A) (l : list A) :
  List.length (filter g (x :: l)) = (count (g x) + List.length (filter g l))%nat.
Proof. simpl. destruct (g x); reflexivity. Qed.

Lemma warnings_count (f : Features) :
  List.length (FeatureBreakdown.warnings f) =
  (count (negb (8 <=? length f)%Z) + count (negb (hasUppercase f)) +
   count (negb (hasLowercase f)) + count (negb (hasDigits f)) +
   count (negb (hasSymbols f)) + count (hasCommonWords f) +
   count (hasKeyboardPatterns f))%nat.
Proof.
  unfold FeatureBreakdown.warnings, FeatureBreakdown.featureItems.
  rewrite !filter_count. cbn [FeatureBreakdown.status filter List.length].
  rewrite !negb_involutive, Nat.add_0_r, !Nat.add_assoc. reflexivity.
Qed.

Lemma statuses_all (f : Features) :
  forallb FeatureBreakdown.status (FeatureBreakdown.featureItems f) =
  (8 <=? length f) && hasUppercase f && hasLowercase f && hasDigits f &&
  hasSymbols f && negb (hasCommonWords f) && negb (hasKeyboardPatterns f).
Proof.
  unfold FeatureBreakdown.featureItems.
  cbn [forallb FeatureBreakdown.status].
  rewrite andb_true_r, !andb_assoc. reflexivity.
Qed.

(** X4.  Every suggestion shown costs at least 10 points: the score is
    at most 120 minus 10 for each suggestion. *)
Theorem each_suggestion_costs_ten (f : Features) :
  calculateScore f <= 120 - 10 * Z.of_nat (List.length (generateSuggestions f)).
Proof.
  rewrite suggestions_count, calculateScore_contributions.
  unfold contribution, holds, weight.
  destruct (8 <=? length f), (12 <=? length f); split_flags f;
    vm_compute; discriminate.
Qed.

(** X5.  The suggestions and the feature breakdown agree: there are as
    many suggestions as rows with a warning, and the "Excellent!" panel
    is shown exactly when all seven rows carry the check mark. *)
Theorem breakdown_matches_suggestions (f : Features) :
  List.length (generateSuggestions f) =
  List.length (FeatureBreakdown.warnings f) /\
  Suggestions.showsExcellent (generateSuggestions f) =
  forallb FeatureBreakdown.status (FeatureBreakdown.featureItems f).
Proof.
  unfold Suggestions.showsExcellent.
  rewrite warnings_count, statuses_all, suggestions_count.
  split; [reflexivity|].
  destruct (8 <=? length f); split_flags f; reflexivity.
Qed.

(** ** Properties of the word and pattern detection *)

Lemma startsWith_prefix (w s : js_string) :
  startsWith s w = true <-> exists b, s = w ++ b.
Proof.
  revert s. induction w as [|a w IH]; intros s; simpl.
  - split; [intros _; exists s; reflexivity | intros _; destruct s; reflexivity].
  - destruct s as [|b s].
    + split; [discriminate | intros [t Ht]; discriminate Ht].
    + simpl. rewrite andb_true_iff, N.eqb_eq, IH. split.
      * intros [E [t Ht]]. exists t. subst. reflexivity.
      * intros [t Ht]. injection Ht as E Ht. subst.
        split; [reflexivity | exists t; reflexivity].
Qed.

(** [includes] finds exactly the contiguous occurrences. *)
Lemma includes_occurrence (s w : js_string) :
  includes s w = true <-> exists a b, s = a ++ w ++ b.
Proof.
  induction s as [|x s IH].
  - change (includes [] w) with (startsWith [] w || false).
    rewrite orb_false_r, startsWith_prefix. split.
    + intros [b Hb]. exists [], b. assumption.
    + intros [a [b Hab]]. destruct a; simpl in Hab.
      * exists b. assumption.
      * discriminate Hab.
  - change (includes (x :: s) w) with (startsWith (x :: s) w || includes s w).
    rewrite orb_true_iff, startsWith_prefix, IH. split.
    + intros [[b Hb]|[a [b Hab]]].
      * exists [], b. assumption.
      * exists (x :: a), b. rewrite Hab. reflexivity.
    + intros [a [b Hab]]. destruct a as [|y a]; simpl in Hab.
      * left. exists b. assumption.
      * right. injection Hab as _ Hab. exists a, b. assumption.
Qed.

Lemma includes_extend (s w a b : js_string) :
  includes s w = true -> includes (a ++ s ++ b) w = true.
Proof.
  rewrite !includes_occurrence. intros [x [y E]]. subst.
  exists (a ++ x), (y ++ b). rewrite <- !app_assoc. reflexivity.
Qed.

Lemma includes_part (s w1 w a b : js_string) :
  w1 = a ++ w ++ b -> includes s w1 = true -> includes s w = true.
Proof.
  intros E. rewrite !includes_occurrence. intros [x [y Es]]. subst.
  exists (x ++ a), (b ++ y). rewrite <- !app_assoc. reflexivity.
Qed.

Lemma toLowerCase_app (a b : js_string) :
  toLowerCase (a ++ b) = toLowerCase a ++ toLowerCase b.
Proof. unfold toLowerCase. apply flat_map_app. Qed.

Lemma lower_unit_ascii_lower (u : code_unit) :
  lower_unit (ascii_lower u) = lower_unit u.
Proof.
  unfold ascii_lower. destruct (is_upper u) eqn:Eu; [|reflexivity].
  unfold lower_unit. rewrite Eu.
  unfold is_upper, in_range in *.
  apply andb_true_iff in Eu. destruct Eu as [H1 H2].
  apply N.leb_le in H1, H2.
  destruct (N.leb_spec 65 (u + 32)), (N.leb_spec (u + 32) 90); simpl; try lia.
  all: destruct (N.eqb_spec (u + 32) 8490); try lia.
  all: destruct (N.eqb_spec (u + 32) 304); try lia; reflexivity.
Qed.

Lemma toLowerCase_ascii_lower (s : js_string) :
  toLowerCase (map ascii_lower s) = toLowerCase s.
Proof.
  unfold toLowerCase. induction s as [|u s IH]; [reflexivity|].
  simpl. rewrite lower_unit_ascii_lower, IH. reflexivity.
Qed.

(** X6.  Detection ignores the case of ASCII letters: two passwords that
    differ only there get the same two flags. *)
Theorem detection_ignores_ascii_case (p q : js_string) :
  same_up_to_ascii_case p q ->
  checkCommonWords p = checkCommonWords q /\
  checkKeyboardPatterns p = checkKeyboardPatterns q.
Proof.
  unfold same_up_to_ascii_case. intros H.
  unfold checkCommonWords, checkKeyboardPatterns.
  rewrite <- (toLowerCase_ascii_lower p), <- (toLowerCase_ascii_lower q), H.
  split; reflexivity.
Qed.

Lemma detection_ignores_ascii_case_witness :
  checkCommonWords (lit "My-PassWord") = checkCommonWords (lit "mY-pAsswORD") /\
  checkKeyboardPatterns (lit "My-PassWord") =
  checkKeyboardPatterns (lit "mY-pAsswORD").
Proof.
  apply (detection_ignores_ascii_case (lit "My-PassWord") (lit "mY-pAsswORD")).
  reflexivity.
Defined.

Lemma some_includes_extend (words : list js_string) (p a b : js_string) :
  some words (fun w => includes (toLowerCase p) w) = true ->
  some words (fun w => includes (toLowerCase (a ++ p ++ b)) w) = true.
Proof.
  unfold some. rewrite !existsb_exists. intros [w [Hin Hw]].
  exists w. split; [assumption|].
  rewrite !toLowerCase_app. apply includes_extend. assumption.
Qed.

(** X7.  Text put before or after a flagged password does not clear the
    flag: this holds for common words and for keyboard patterns. *)
Theorem detection_survives_padding (p a b : js_string) :
  (checkCommonWords p = true -> checkCommonWords (a ++ p ++ b) = true) /\
  (checkKeyboardPatterns p = true -> checkKeyboardPatterns (a ++ p ++ b) = true).
Proof.
  split; apply some_includes_extend.
Qed.

Lemma detection_survives_padding_witness :
  checkCommonWords (lit "My" ++ lit "Password" ++ lit "#2024") = true.
Proof.
  apply (proj1 (detection_survives_padding
                  (lit "Password") (lit "My") (lit "#2024"))).
  reflexivity.
Defined.

(** X8.  The two lists overlap: a password whose lower-cased form
    contains "qwerty" or "123456" is flagged both for a common word and
    for a keyboard pattern, which caps its score at 95. *)
Theorem overlapping_lists_flag_twice (p : js_string) :
  includes (toLowerCase p) (lit "qwerty") = true \/
  includes (toLowerCase p) (lit "123456") = true ->
  checkCommonWords p = true /\
  checkKeyboardPatterns p = true /\
  calculateScore (extractFeatures p) <= 95.
Proof.
  intros H.
  assert (Hw : checkCommonWords p = true).
  { unfold checkCommonWords, some. apply existsb_exists.
    destruct H as [H|H].
    - exists (lit "qwerty"). split; [simpl; tauto | exact H].
    - exists (lit "123456"). split; [simpl; tauto | exact H]. }
  assert (Hk : checkKeyboardPatterns p = true).
  { unfold checkKeyboardPatterns, some. apply existsb_exists.
    destruct H as [H|H].
    - exists (lit "qwerty"). split; [simpl; tauto | exact H].
    - exists (lit "1234"). split; [simpl; tauto|].
      apply (includes_part _ (lit "123456") (lit "1234") [] (lit "56"));
        [reflexivity | exact H]. }
  split; [exact Hw|]. split; [exact Hk|].
  unfold calculateScore. cbn [hasCommonWords hasKeyboardPatterns extractFeatures].
  rewrite Hw, Hk.
  destruct (8 <=? length (extractFeatures p)),
    (12 <=? length (extractFeatures p)), (hasUppercase (extractFeatures p)),
    (hasLowercase (extractFeatures p)), (hasDigits (extractFeatures p)),
    (hasSymbols (extractFeatures p)); simpl; lia.
Qed.

Lemma overlapping_lists_flag_twice_witness :
  checkCommonWords (lit "Qwerty!2024abc") = true /\
  checkKeyboardPatterns (lit "Qwerty!2024abc") = true /\
  calculateScore (extractFeatures (lit "Qwerty!2024abc")) <= 95.
Proof.
  apply (overlapping_lists_flag_twice (lit "Qwerty!2024abc")).
  left. reflexivity.
Defined.

(** ** Further properties of the character set and the entropy *)

Lemma pow_argument_order (p q : js_string) :
  getCharsetSize p <= getCharsetSize q ->
  (List.length p <= List.length q)%nat ->
  getCharsetSize p ^ Z.of_nat (List.length p) <=
  getCharsetSize q ^ Z.of_nat (List.length q).
Proof.
  intros Hc Hlen. destruct p as [|u p'] eqn:E.
  - pose proof (pow_argument_positive q). simpl. lia.
  - rewrite <- E in *.
    assert (10 <= getCharsetSize p).
    { apply getCharsetSize_nonempty. rewrite E. discriminate. }
    apply Z.le_trans with (getCharsetSize q ^ Z.of_nat (List.length p)).
    + apply Z.pow_le_mono_l. lia.
    + apply Z.pow_le_mono_r; lia.
Qed.

Lemma calculateEntropy_order (p q : js_string) :
  getCharsetSize p ^ Z.of_nat (List.length p) <=
  getCharsetSize q ^ Z.of_nat (List.length q) ->
  number_le (calculateEntropy p) (calculateEntropy q).
Proof.
  intros Hpow. pose proof (pow_argument_positive p) as Hpos.
  destruct (calculateEntropy_cases q) as [[Hq_lt Eq]|[_ Eq]]; rewrite Eq.
  - destruct (calculateEntropy_cases p) as [[_ Ep]|[Hp_ge _]]; [|lia].
    rewrite Ep. simpl. apply log2_monotone.
    + apply IZR_lt. lia.
    + apply IZR_le. exact Hpow.
  - destruct (calculateEntropy_cases p) as [[_ Ep]|[_ Ep]]; rewrite Ep;
      exact I.
Qed.

(** X9.  The character-set size is 0 for the empty password only; any
    other password has a size between 10 and 94. *)
Theorem getCharsetSize_zero_iff_empty (p : js_string) :
  (getCharsetSize p = 0 <-> p = []) /\
  (p <> [] -> 10 <= getCharsetSize p <= 94).
Proof.
  assert (Hne : p <> [] -> 10 <= getCharsetSize p <= 94).
  { intros H. pose proof (getCharsetSize_nonempty p H).
    pose proof (getCharsetSize_bounds p). lia. }
  split; [|exact Hne]. split.
  - intros H0. destruct p as [|u p']; [reflexivity|].
    assert (10 <= getCharsetSize (u :: p') <= 94) by (apply Hne; discriminate).
    lia.
  - intros E. subst. reflexivity.
Qed.

Lemma getCharsetSize_zero_iff_empty_witness :
  10 <= getCharsetSize (lit "7") <= 94.
Proof.
  apply (proj2 (getCharsetSize_zero_iff_empty (lit "7"))). discriminate.
Defined.

Lemma log2_two_pow_1024 : (log2 (IZR (2 ^ 1024)) = 1024)%R.
Proof.
  change (2 ^ 1024) with (2 ^ Z.of_nat 1024).
  rewrite log2_pow by lia. rewrite INR_IZR_INZ.
  change (Z.of_nat 1024) with 1024.
  unfold log2. field. pose proof ln2_positive. lra.
Qed.

(** X10.  For a password of at most 156 code units the power does not
    overflow: the entropy is a finite number between 0 and 1024. *)
Theorem calculateEntropy_finite_up_to_156 (p : js_string) :
  (List.length p <= 156)%nat ->
  exists x, calculateEntropy p = Finite x /\ (0 <= x <= 1024)%R.
Proof.
  intros Hlen. pose proof (short_password_no_overflow p Hlen) as Hlt.
  pose proof (pow_argument_positive p) as Hpos.
  destruct (calculateEntropy_cases p) as [[_ E]|[Hge _]]; [|lia].
  exists (log2 (IZR (getCharsetSize p ^ Z.of_nat (List.length p)))).
  split; [exact E|]. split.
  - rewrite <- log2_1. apply log2_monotone; [lra|].
    apply IZR_le. exact Hpos.
  - rewrite <- log2_two_pow_1024. apply log2_monotone.
    + apply IZR_lt. lia.
    + apply IZR_le. apply Z.lt_le_incl.
      apply Z.lt_le_trans with overflow_threshold; [exact Hlt|].
      vm_compute. discriminate.
Qed.

Lemma calculateEntropy_finite_up_to_156_witness :
  exists x, calculateEntropy (lit "password123") = Finite x /\
            (0 <= x <= 1024)%R.
Proof.
  apply (calculateEntropy_finite_up_to_156 (lit "password123")).
  vm_compute. lia.
Defined.

(** X11.  For a password of 309 code units or more the entropy is
    [Infinity], whatever its characters. *)
Theorem calculateEntropy_infinite_from_309 (p : js_string) :
  (309 <= List.length p)%nat -> calculateEntropy p = PosInfinity.
Proof.
  intros Hlen.
  destruct (calculateEntropy_cases p) as [[Hlt _]|[_ E]]; [exfalso|exact E].
  assert (Hc : 10 <= getCharsetSize p).
  { apply getCharsetSize_nonempty. intros E. subst. simpl in Hlen. lia. }
  assert (H10 : 10 ^ 309 <= getCharsetSize p ^ Z.of_nat (List.length p)).
  { apply Z.le_trans with (10 ^ Z.of_nat (List.length p)).
    - apply Z.pow_le_mono_r; lia.
    - apply Z.pow_le_mono_l. lia. }
  assert (Hthr : overflow_threshold <= 10 ^ 309).
  { vm_compute. intros E. discriminate E. }
  lia.
Qed.

Lemma calculateEntropy_infinite_from_309_witness :
  calculateEntropy (repeat_string (lit "7") 309) = PosInfinity.
Proof.
  apply (calculateEntropy_infinite_from_309 (repeat_string (lit "7") 309)).
  vm_compute. lia.
Defined.

(** X12.  The entropy sees only the length and the set of character
    classes: two passwords that agree on both have the same entropy. *)
Theorem calculateEntropy_only_length_and_classes (p q : js_string) :
  List.length p = List.length q ->
  (forall c, present c p = present c q) ->
  calculateEntropy p = calculateEntropy q.
Proof.
  intros Hlen Hc. unfold calculateEntropy.
  rewrite (getCharsetSize_classes p), (getCharsetSize_classes q), Hlen.
  unfold classes. simpl.
  rewrite (Hc Lower), (Hc Upper), (Hc Digit), (Hc Symbol). reflexivity.
Qed.

Lemma calculateEntropy_only_length_and_classes_witness :
  calculateEntropy (lit "aaaaaaaa") = calculateEntropy (lit "qmzkwpxv").
Proof.
  apply (calculateEntropy_only_length_and_classes
           (lit "aaaaaaaa") (lit "qmzkwpxv")).
  - reflexivity.
  - intros c. destruct c; reflexivity.
Defined.

(** X13.  Appending characters never lowers the entropy. *)
Theorem calculateEntropy_append (p q : js_string) :
  number_le (calculateEntropy p) (calculateEntropy (p ++ q)).
Proof.
  apply calculateEntropy_order, pow_argument_order.
  - apply getCharsetSize_monotone. intros c Hc.
    unfold present, test in *. rewrite existsb_app, Hc. reflexivity.
  - rewrite length_app. lia.
Qed.

(** X14.  The entropy is never negative, never NaN and never
    [-Infinity]. *)
Theorem calculateEntropy_nonnegative (p : js_string) :
  number_le (Finite 0) (calculateEntropy p).
Proof.
  replace (Finite 0) with (calculateEntropy []) by apply calculateEntropy_empty.
  apply calculateEntropy_order.
  pose proof (pow_argument_positive p). simpl. lia.
Qed.

(** ** Properties of the page *)

Section PageInvariants.

Import Page.

Lemma string_eqb_eq (a b : js_string) : string_eqb a b = true <-> a = b.
Proof.
  revert b. induction a as [|x a IH]; intros [|y b]; simpl;
    try (split; [discriminate | intros E; discriminate E]).
  - split; reflexivity.
  - rewrite andb_true_iff, N.eqb_eq, IH. split.
    + intros [E1 E2]. subst. reflexivity.
    + intros E. injection E as E1 E2. split; assumption.
Qed.

Lemma string_eqb_neq (a b : js_string) : a <> b -> string_eqb a b = false.
Proof.
  intros H. destruct (string_eqb a b) eqn:E; [|reflexivity].
  apply string_eqb_eq in E. contradiction.
Qed.

(** What the effect stores depends on the password alone. *)
Lemma effect_stores_localAnalysis (v : js_string) (s : State) :
  analysis (useEffect_password (setPassword v s)) = localAnalysis v /\
  password (useEffect_password (setPassword v s)) = v /\
  isLoading (useEffect_password (setPassword v s)) = isLoading s.
Proof.
  unfold localAnalysis, useEffect_password, setPassword. simpl.
  destruct v; simpl; repeat split.
Qed.

(** An invariant of [handle] is an invariant of [run]. *)
Lemma run_invariant (I : Page -> Prop) (events : list Event) :
  (forall e pg, In e events -> I pg -> I (handle e pg)) ->
  forall pg, I pg -> I (run events pg).
Proof.
  unfold run. induction events as [|e events IH]; intros Hstep pg Hpg.
  - exact Hpg.
  - simpl. apply IH.
    + intros e' pg' Hin. apply Hstep. right. exact Hin.
    + apply Hstep; [left; reflexivity | exact Hpg].
Qed.

Definition single_flight (pg : Page) : Prop :=
  (inFlight pg <= 1)%nat /\ isLoading (st pg) = Nat.eqb (inFlight pg) 1.

Lemma handle_single_flight (e : Event) (pg : Page) :
  single_flight pg -> single_flight (handle e pg).
Proof.
  unfold single_flight. intros [Hle Hload]. destruct e as [v| | |r]; simpl.
  - unfold onChange. destruct (string_eqb v (password (st pg))); simpl.
    + split; assumption.
    + destruct (effect_stores_localAnalysis v (st pg)) as [_ [_ E]].
      rewrite E. split; assumption.
  - split; assumption.
  - unfold submitDisabled, submitToBackend_begin.
    destruct (truthy (password (st pg))); simpl; [|split; assumption].
    destruct (isLoading (st pg)) eqn:El; simpl.
    + rewrite El. split; assumption.
    + destruct (inFlight pg) as [|[|n]]; simpl in *.
      * split; [lia | reflexivity].
      * discriminate Hload.
      * lia.
  - destruct (inFlight pg) as [|[|n]] eqn:En.
    + rewrite En. split; assumption.
    + destruct r; simpl; rewrite En; simpl; split; first [lia | reflexivity].
    + lia.
Qed.

Lemma click_keeps (pg : Page) :
  password (st (handle Click pg)) = password (st pg) /\
  analysis (st (handle Click pg)) = analysis (st pg) /\
  toasts (handle Click pg) = toasts pg.
Proof.
  unfold handle, submitDisabled, submitToBackend_begin.
  destruct (truthy (password (st pg))); simpl; [|auto].
  destruct (isLoading (st pg)); simpl; auto.
Qed.

Lemma change_cases (v : js_string) (pg : Page) :
  handle (Change v) pg = pg \/
  (password (st (handle (Change v) pg)) = v /\
   analysis (st (handle (Change v) pg)) = localAnalysis v /\
   toasts (handle (Change v) pg) = toasts pg).
Proof.
  unfold handle, onChange.
  destruct (string_eqb v (password (st pg))); [left; reflexivity|].
  right. simpl.
  destruct (effect_stores_localAnalysis v (st pg)) as [Ea [Ep _]].
  auto.
Qed.

Lemma settle_cases (r : Reply) (pg : Page) :
  handle (Settle r) pg = pg \/
  handle (Settle r) pg = submitToBackend_settle r pg.
Proof.
  unfold handle. destruct (inFlight pg); [left | right]; reflexivity.
Qed.

Definition no_error_toast (pg : Page) : Prop := ~ In errorToast (toasts pg).

Lemma handle_no_error_toast (e : Event) (pg : Page) :
  no_error_toast pg -> no_error_toast (handle e pg).
Proof.
  unfold no_error_toast. intros H. destruct e as [v| | |r].
  - destruct (change_cases v pg) as [E|[_ [_ Et]]].
    + rewrite E. exact H.
    + rewrite Et. exact H.
  - exact H.
  - destruct (click_keeps pg) as [_ [_ Et]]. rewrite Et. exact H.
  - destruct (settle_cases r pg) as [E|E]; rewrite E; [exact H|].
    destruct r; simpl; unfold push; rewrite in_app_iff; simpl;
      intros [Hin|[E'|[]]]; try discriminate E'; contradiction.
Qed.

Definition shows_local (pg : Page) : Prop :=
  analysis (st pg) = localAnalysis (password (st pg)).

Lemma handle_shows_local (e : Event) (pg : Page) :
  is_successful_reply e = false -> shows_local pg -> shows_local (handle e pg).
Proof.
  unfold shows_local. intros He H. destruct e as [v| | |r].
  - destruct (change_cases v pg) as [E|[Ep [Ea _]]].
    + rewrite E. exact H.
    + rewrite Ep, Ea. reflexivity.
  - exact H.
  - destruct (click_keeps pg) as [Ep [Ea _]]. rewrite Ep, Ea. exact H.
  - destruct (settle_cases r pg) as [E|E]; rewrite E; [exact H|].
    destruct r; simpl; [discriminate He | exact H].
Qed.

End PageInvariants.

(** X15.  Whatever the user and the backend do, at most one request is
    in flight, and the loading flag is set exactly while one is. *)
Theorem one_request_at_a_time (events : list Page.Event) :
  (Page.inFlight (Page.run events Page.mount) <= 1)%nat /\
  isLoading (Page.st (Page.run events Page.mount)) =
  Nat.eqb (Page.inFlight (Page.run events Page.mount)) 1.
Proof.
  apply (run_invariant single_flight events).
  - intros e pg _. apply handle_single_flight.
  - split; [simpl; lia | reflexivity].
Qed.

(** X17.  The "Please enter a password" toast is never raised: the
    button is disabled while the password is empty, so the guard at the
    head of [submitToBackend] never fires. *)
Theorem error_toast_unreachable (events : list Page.Event) :
  ~ In Page.errorToast (Page.toasts (Page.run events Page.mount)).
Proof.
  apply (run_invariant no_error_toast events).
  - intros e pg _. apply handle_no_error_toast.
  - intros Hin. exact Hin.
Qed.

(** X18.  As long as no request succeeds, the analysis on the page is
    the local analysis of the password in the field (none for the empty
    password); a failed request leaves it in place. *)
Theorem analysis_follows_password (events : list Page.Event) :
  existsb Page.is_successful_reply events = false ->
  analysis (Page.st (Page.run events Page.mount)) =
  Page.localAnalysis (password (Page.st (Page.run events Page.mount))).
Proof.
  intros Hno.
  apply (run_invariant shows_local events).
  - intros e pg Hin. apply handle_shows_local.
    destruct (Page.is_successful_reply e) eqn:E; [|reflexivity].
    assert (existsb Page.is_successful_reply events = true).
    { apply existsb_exists. exists e. split; assumption. }
    congruence.
  - reflexivity.
Qed.

Lemma analysis_follows_password_witness :
  analysis (Page.st (Page.run [Page.Change (lit "password123"); Page.Click;
                               Page.ToggleDark; Page.Settle Page.ReplyFailed]
                              Page.mount)) =
  Page.localAnalysis
    (password (Page.st (Page.run [Page.Change (lit "password123"); Page.Click;
                                  Page.ToggleDark; Page.Settle Page.ReplyFailed]
                                 Page.mount))).
Proof.
  apply (analysis_follows_password
           [Page.Change (lit "password123"); Page.Click; Page.ToggleDark;
            Page.Settle Page.ReplyFailed]).
  reflexivity.
Defined.

Section StaleReply.

Import Page.

Lemma change_new_value (v : js_string) (pg : Page) :
  v <> password (st pg) ->
  password (st (handle (Change v) pg)) = v /\
  isLoading (st (handle (Change v) pg)) = isLoading (st pg) /\
  inFlight (handle (Change v) pg) = inFlight pg.
Proof.
  intros Hv. unfold handle, onChange.
  rewrite (string_eqb_neq _ _ Hv). simpl.
  destruct (effect_stores_localAnalysis v (st pg)) as [_ [Ep El]].
  auto.
Qed.

Lemma click_enabled (pg : Page) :
  password (st pg) <> [] -> isLoading (st pg) = false ->
  password (st (handle Click pg)) = password (st pg) /\
  inFlight (handle Click pg) = S (inFlight pg).
Proof.
  intros Hp Hl. unfold handle, submitDisabled, submitToBackend_begin.
  destruct (password (st pg)) as [|u p'] eqn:E; [contradiction|].
  simpl. rewrite Hl. simpl. auto.
Qed.

Lemma settle_ok (body : option PasswordAnalysis) (pg : Page) :
  inFlight pg <> 0%nat ->
  password (st (handle (Settle (ReplyOk body)) pg)) = password (st pg) /\
  analysis (st (handle (Settle (ReplyOk body)) pg)) = body.
Proof.
  intros Hn. unfold handle. destruct (inFlight pg); [contradiction|].
  simpl. auto.
Qed.

End StaleReply.

(** X19.  A reply can be stale: when the user submits [p], then types a
    different [q] and the request succeeds afterwards, the page holds
    the password [q] with the body the backend sent for [p]. *)
Theorem stale_reply_overwrites (p q : js_string)
        (body : option PasswordAnalysis) :
  p <> [] -> q <> p ->
  password (Page.st (Page.run [Page.Change p; Page.Click; Page.Change q;
                               Page.Settle (Page.ReplyOk body)] Page.mount)) = q /\
  analysis (Page.st (Page.run [Page.Change p; Page.Click; Page.Change q;
                               Page.Settle (Page.ReplyOk body)] Page.mount)) = body.
Proof.
  intros Hp Hq. unfold Page.run. cbn [fold_left].
  destruct (change_new_value p Page.mount Hp) as [P1 [L1 F1]].
  set (pg1 := Page.handle (Page.Change p) Page.mount) in *.
  assert (Hp1 : password (Page.st pg1) <> []) by (rewrite P1; exact Hp).
  destruct (click_enabled pg1 Hp1 L1) as [P2 F2].
  set (pg2 := Page.handle Page.Click pg1) in *.
  assert (Hq2 : q <> password (Page.st pg2)) by (rewrite P2, P1; exact Hq).
  destruct (change_new_value q pg2 Hq2) as [P3 [_ F3]].
  set (pg3 := Page.handle (Page.Change q) pg2) in *.
  assert (Hn : Page.inFlight pg3 <> 0%nat) by (rewrite F3, F2; discriminate).
  destruct (settle_ok body pg3 Hn) as [P4 A4].
  rewrite P4, P3, A4. split; reflexivity.
Qed.

Lemma stale_reply_overwrites_witness :
  password (Page.st (Page.run
     [Page.Change (lit "password123"); Page.Click;
      Page.Change (lit "Tr0ub4dor&3xyz!");
      Page.Settle (Page.ReplyOk
        (Some (mkAnalysis moderate 60 PosInfinity []
                 (mkFeatures 11 false true true false true false))))]
     Page.mount)) =
  lit "Tr0ub4dor&3xyz!" /\
  analysis (Page.st (Page.run
     [Page.Change (lit "password123"); Page.Click;
      Page.Change (lit "Tr0ub4dor&3xyz!");
      Page.Settle (Page.ReplyOk
        (Some (mkAnalysis moderate 60 PosInfinity []
                 (mkFeatures 11 false true true false true false))))]
     Page.mount)) =
  Some (mkAnalysis moderate 60 PosInfinity []
                   (mkFeatures 11 false true true false true false)).
Proof.
  apply (stale_reply_overwrites
           (lit "password123") (lit "Tr0ub4dor&3xyz!")
           (Some (mkAnalysis moderate 60 PosInfinity []
                    (mkFeatures 11 false true true false true false))));
    discriminate.
Defined.

(** ** Properties of the extracted features *)

(** X20.  Every code unit belongs to exactly one of the four character
    classes tested by the regular expressions. *)
Theorem classes_partition (u : code_unit) :
  exists c, member c u = true /\ forall c', member c' u = true -> c' = c.
Proof.
  assert (Hs : is_symbol u = negb (is_upper u || is_lower u || is_digit u))
    by reflexivity.
  assert (Hd : is_upper u && is_lower u = false /\
               is_upper u && is_digit u = false /\
               is_lower u && is_digit u = false).
  { unfold is_upper, is_lower, is_digit, in_range.
    destruct (N.leb_spec 65 u), (N.leb_spec u 90), (N.leb_spec 97 u),
      (N.leb_spec u 122), (N.leb_spec 48 u), (N.leb_spec u 57);
      simpl; try lia; auto. }
  destruct Hd as [H1 [H2 H3]].
  destruct (is_upper u) eqn:Eu, (is_lower u) eqn:El, (is_digit u) eqn:Ed;
    simpl in *; try discriminate;
    [exists Upper | exists Lower | exists Digit | exists Symbol];
    (split; [simpl; congruence
            | intros c' Hc'; destruct c'; simpl in Hc'; congruence]).
Qed.

Lemma classes_partition_witness :
  exists c, member c 32%N = true /\ forall c', member c' 32%N = true -> c' = c.
Proof. apply (classes_partition 32%N). Defined.

Lemma some_class_flag (p : js_string) :
  p <> [] ->
  hasUppercase (extractFeatures p) || hasLowercase (extractFeatures p) ||
  hasDigits (extractFeatures p) || hasSymbols (extractFeatures p) = true.
Proof.
  intros Hne. pose proof (getCharsetSize_nonempty p Hne) as H.
  unfold getCharsetSize in H. simpl.
  destruct (test is_lower p), (test is_upper p), (test is_digit p),
    (test is_symbol p); simpl in *; first [reflexivity | lia].
Qed.

(** X21.  No password scores below 15: the empty one scores 25 and any
    other has a character class, worth at least 15. *)
Theorem calculateScore_at_least_15 (p : js_string) :
  15 <= calculateScore (extractFeatures p).
Proof.
  destruct p as [|u p'] eqn:E.
  - vm_compute. discriminate.
  - rewrite <- E.
    assert (Hne : p <> []) by (rewrite E; discriminate).
    pose proof (some_class_flag p Hne) as Hc.
    rewrite calculateScore_contributions. unfold contribution, holds, weight.
    destruct (8 <=? length (extractFeatures p)),
      (12 <=? length (extractFeatures p)),
      (hasUppercase (extractFeatures p)), (hasLowercase (extractFeatures p)),
      (hasDigits (extractFeatures p)), (hasSymbols (extractFeatures p)),
      (hasCommonWords (extractFeatures p)),
      (hasKeyboardPatterns (extractFeatures p));
      simpl in *; first [lia | discriminate Hc].
Qed.
